(** * p5.sound.js: SoundFile, Noise and FFT wrappers over the Tone.js engine

    The three classes of the repository are thin wrappers: each holds one
    or more engine nodes, assigns properties on them and forwards method
    calls.  The engine itself (Tone.js) is not part of the repository, so
    it is a parameter of the development ([Tone.Engine]): every theorem
    about a wrapper holds for every engine.

    Conventions of the embedding.
    - A JavaScript number is an IEEE 754 binary64 value: [float].
    - A method body is a computation in the monad [js], which threads the
      receiver ([this]) and the console and may complete abruptly with a
      thrown exception.  State written before a throw stays written, as
      in JavaScript.
    - A method call on an engine node is an operation of [Tone.Engine]:
      it reads the whole node, returns the node's new engine-internal
      state ([native]) and either returns or throws.
    - A property assignment on an engine node ([node.p = v]) runs the
      engine's setter, which can throw.  The setters of [playbackRate],
      [loopStart] and [loopEnd] store the value first and pass it on to
      the player's sources next; the setters of [volume.value] and of a
      noise's [type] check the value first and store it only when they
      accept it.  [loop] and [onstop] are plain stores. *)

From Stdlib Require Import String List Bool Floats Lia.
Import ListNotations.

Local Open Scope string_scope.

(** ** JavaScript values, completions and the method monad *)

(** The values that cross the wrappers' interfaces: primitives and
    references to non-callable host objects. *)
Inductive jsvalue : Type :=
| VUndefined
| VNull
| VBool (b : bool)
| VNum (x : float)
| VStr (s : string)
| VObject (id : nat).

(** A host callback (a JavaScript function passed in by the sketch). *)
Definition jsfunction := nat.

Inductive exn : Type :=
| TypeError
| ReferenceError
| RangeError
| EngineError (code : nat).

Inductive completion (A : Type) : Type :=
| Normal (a : A)
| Throw (e : exn).
Arguments Normal {A} a.
Arguments Throw {A} e.

(** Sequencing of constructor steps, which have no receiver yet. *)
Definition andThen {A B} (r : completion A) (k : A -> completion B) : completion B :=
  match r with
  | Normal a => k a
  | Throw e => Throw e
  end.

(** One entry per [console.log] call: the list of its arguments. *)
Definition console := list (list jsvalue).

Definition js (S A : Type) : Type := S -> console -> completion A * S * console.

Definition ret {S A} (a : A) : js S A := fun s c => (Normal a, s, c).

Definition throw {S A} (e : exn) : js S A := fun s c => (Throw e, s, c).

Definition bind {S A B} (m : js S A) (k : A -> js S B) : js S B :=
  fun s c =>
    match m s c with
    | (Normal a, s', c') => k a s' c'
    | (Throw e, s', c') => (Throw e, s', c')
    end.

Definition gets {S A} (f : S -> A) : js S A := fun s c => (Normal (f s), s, c).

Definition modify {S} (f : S -> S) : js S unit := fun s c => (Normal tt, f s, c).

Definition console_log {S} (args : list jsvalue) : js S unit :=
  fun s c => (Normal tt, s, (c ++ [args])%list).

Declare Scope js_scope.
Delimit Scope js_scope with js.
Notation "x <- m ;; k" := (bind m (fun x => k))
  (at level 61, m at next level, right associativity) : js_scope.
Notation "m ;; k" := (bind m (fun _ => k))
  (at level 61, right associativity) : js_scope.

(** Projections of the result of running a method. *)
Definition outcome {S A} (r : completion A * S * console) : completion A := fst (fst r).
Definition final {S A} (r : completion A * S * console) : S := snd (fst r).
Definition output {S A} (r : completion A * S * console) : console := snd r.

(** ** The engine interface (Tone.js, as far as the wrappers use it) *)

Module Tone.

(** The decoded audio data of a sound file. *)
Record AudioBuffer : Type := mkAudioBuffer {
  duration : float;
  sampleRate : float;
  length : float;
  numberOfChannels : float
}.

(** [player.buffer]: a [Tone.ToneAudioBuffer], an object that exists from
    the construction of the player on and holds the decoded data once
    the load has finished. *)
Record ToneAudioBuffer : Type := mkToneAudioBuffer {
  decoded : option AudioBuffer
}.

(** [Math.LN10] *)
Definition LN10 : float := 0x1.26bb1bbb55516p+1%float.

Section Nodes.
Variable native : Type.

(** A [Tone.Player]: the properties the wrapper reads or assigns,
    and the engine's own state of the node (transport position,
    scheduled sources, outgoing edges).  [volume] is the decibel value
    last accepted through [volume.value]. *)
Record Player : Type := mkPlayer {
  playbackRate : float;
  loop : bool;
  loopStart : float;
  loopEnd : float;
  volume : float;
  buffer : ToneAudioBuffer;
  onstop : option jsfunction;
  player_native : native
}.

(** A [Tone.Noise]: its [type] property and the engine's state. *)
Record Noise : Type := mkNoise {
  type : jsvalue;
  noise_native : native
}.

(** What [getNode()] hands out, and what [connect] receives. *)
Inductive node : Type :=
| PlayerNode (p : Player)
| NoiseNode (n : Noise)
| GainNode (g : native)
| FFTNode (a : native)
| WaveformNode (w : native).

Definition set_playbackRate (x : float) (p : Player) : Player :=
  mkPlayer x (loop p) (loopStart p) (loopEnd p) (volume p) (buffer p) (onstop p)
           (player_native p).
Definition set_loop (b : bool) (p : Player) : Player :=
  mkPlayer (playbackRate p) b (loopStart p) (loopEnd p) (volume p) (buffer p) (onstop p)
           (player_native p).
Definition set_loopStart (x : float) (p : Player) : Player :=
  mkPlayer (playbackRate p) (loop p) x (loopEnd p) (volume p) (buffer p) (onstop p)
           (player_native p).
Definition set_loopEnd (x : float) (p : Player) : Player :=
  mkPlayer (playbackRate p) (loop p) (loopStart p) x (volume p) (buffer p) (onstop p)
           (player_native p).
Definition set_volume (x : float) (p : Player) : Player :=
  mkPlayer (playbackRate p) (loop p) (loopStart p) (loopEnd p) x (buffer p) (onstop p)
           (player_native p).
Definition set_onstop (f : option jsfunction) (p : Player) : Player :=
  mkPlayer (playbackRate p) (loop p) (loopStart p) (loopEnd p) (volume p) (buffer p) f
           (player_native p).
Definition set_player_native (n : native) (p : Player) : Player :=
  mkPlayer (playbackRate p) (loop p) (loopStart p) (loopEnd p) (volume p) (buffer p)
           (onstop p) n.

Definition set_type (v : jsvalue) (n : Noise) : Noise := mkNoise v (noise_native n).
Definition set_noise_native (s : native) (n : Noise) : Noise := mkNoise (type n) s.
End Nodes.

Arguments mkPlayer {native}.
Arguments playbackRate {native}.
Arguments loop {native}.
Arguments loopStart {native}.
Arguments loopEnd {native}.
Arguments volume {native}.
Arguments buffer {native}.
Arguments onstop {native}.
Arguments player_native {native}.
Arguments mkNoise {native}.
Arguments type {native}.
Arguments noise_native {native}.
Arguments PlayerNode {native}.
Arguments NoiseNode {native}.
Arguments GainNode {native}.
Arguments FFTNode {native}.
Arguments WaveformNode {native}.
Arguments set_playbackRate {native}.
Arguments set_loop {native}.
Arguments set_loopStart {native}.
Arguments set_loopEnd {native}.
Arguments set_volume {native}.
Arguments set_onstop {native}.
Arguments set_player_native {native}.
Arguments set_type {native}.
Arguments set_noise_native {native}.

(** The engine operations the three source files call.  A constructor
    returns the new node or throws; a method returns the receiver's new
    engine state together with its completion.  For a property whose
    setter stores first, the operation is what the setter does after the
    store, run on the node that already holds the new value; for a
    property whose setter checks first, the operation receives the
    value, and the value is stored when the operation returns. *)
Class Engine : Type := {
  native : Type;
  (* new Tone.Player(buffer, successCallback) *)
  new_Player : jsvalue -> option jsfunction -> completion (Player native);
  (* new Tone.Noise() *)
  new_Noise : completion (Noise native);
  (* new Tone.FFT({size, normalRange}) *)
  new_FFT : jsvalue -> bool -> completion native;
  (* new Tone.Waveform() *)
  new_Waveform : completion native;
  (* new Tone.Gain(gain) *)
  new_Gain : float -> completion native;
  (* node.toDestination(), whose result is the node *)
  toDestination : node native -> native * completion unit;
  (* node.connect(destination) *)
  connect : node native -> node native -> native * completion unit;
  (* the value of the expression Tone.Context.destination *)
  Context_destination : jsvalue;
  (* node.disconnect(destination) *)
  disconnect : node native -> jsvalue -> native * completion unit;
  (* player.start(), player.stop(), player.seek(offset) *)
  Player_start : Player native -> native * completion unit;
  Player_stop : Player native -> native * completion unit;
  Player_seek : Player native -> float -> native * completion unit;
  (* noise.start(), noise.stop() *)
  Noise_start : Noise native -> native * completion unit;
  Noise_stop : Noise native -> native * completion unit;
  (* analyser.getValue(): the array it returns *)
  FFT_getValue : native -> native * completion (list float);
  (* player.playbackRate = x, player.loopStart = x, player.loopEnd = x:
     the setter after its store *)
  playbackRate_set : Player native -> native * completion unit;
  loopStart_set : Player native -> native * completion unit;
  loopEnd_set : Player native -> native * completion unit;
  (* player.volume.value = x: the setter, which stores x if it returns *)
  volume_set : Player native -> float -> native * completion unit;
  (* noise.type = t: the setter, which stores t if it returns *)
  Noise_type_set : Noise native -> jsvalue -> native * completion unit;
  (* the sample rate of the audio context *)
  Context_sampleRate : float;
  (* Math.log, which answers -Infinity at 0 *)
  Math_log : float -> float;
  Math_log_zero : Math_log 0%float = neg_infinity
}.

(** [Tone.gainToDb(gain)], as the library computes it:
    [20 * (Math.log(gain) / Math.LN10)]. *)
Definition gainToDb {E : Engine} (gain : float) : float :=
  (20 * (Math_log gain / LN10))%float.

(** The getters of a [ToneAudioBuffer], as the library defines them:
    while no decoded data is there, [duration], [length] and
    [numberOfChannels] read 0 and [sampleRate] reads the sample rate of
    the audio context. *)
Definition buffer_duration (b : ToneAudioBuffer) : float :=
  match decoded b with Some a => duration a | None => 0%float end.

Definition buffer_length (b : ToneAudioBuffer) : float :=
  match decoded b with Some a => length a | None => 0%float end.

Definition buffer_numberOfChannels (b : ToneAudioBuffer) : float :=
  match decoded b with Some a => numberOfChannels a | None => 0%float end.

Definition buffer_sampleRate {E : Engine} (b : ToneAudioBuffer) : float :=
  match decoded b with Some a => sampleRate a | None => Context_sampleRate end.

End Tone.

Local Open Scope js_scope.

(** ** class SoundFile *)

Module SoundFile.
Section WithEngine.
Context {E : Tone.Engine}.

(** [this]: the three properties the constructor creates. *)
Record obj : Type := mk {
  soundfile : Tone.Player Tone.native;
  playing : bool;
  rate : float
}.

Definition set_soundfile (f : Tone.Player Tone.native -> Tone.Player Tone.native)
           (this : obj) : obj :=
  mk (f (soundfile this)) (playing this) (rate this).
Definition set_playing (b : bool) (this : obj) : obj := mk (soundfile this) b (rate this).
Definition set_rate (x : float) (this : obj) : obj := mk (soundfile this) (playing this) x.

(** A method call on [this.soundfile]. *)
Definition on_soundfile
           (op : Tone.Player Tone.native -> Tone.native * completion unit) : js obj unit :=
  fun this c =>
    let '(n, r) := op (soundfile this) in
    (r, set_soundfile (Tone.set_player_native n) this, c).

(** [this.soundfile.p = v] through a setter that stores first: the
    store, then what the engine does with the new value. *)
Definition assign (store : Tone.Player Tone.native -> Tone.Player Tone.native)
           (setter : Tone.Player Tone.native -> Tone.native * completion unit)
  : js obj unit :=
  modify (set_soundfile store) ;;
  on_soundfile setter.

(** [this.soundfile.volume.value = v], through a setter that checks
    first: [v] is stored when the engine accepts it. *)
Definition assign_volume (v : float) : js obj unit :=
  fun this c =>
    let '(n, r) := Tone.volume_set (soundfile this) v in
    match r with
    | Normal _ =>
        (Normal tt,
         set_soundfile (fun p => Tone.set_player_native n (Tone.set_volume v p)) this, c)
    | Throw e => (Throw e, set_soundfile (Tone.set_player_native n) this, c)
    end.

(** The test [if (this.soundfile.buffer)]: the buffer is an object, and
    an object is truthy. *)
Definition truthy (b : Tone.ToneAudioBuffer) : bool := true.

(** Evaluation of an argument expression done before the call. *)
Definition evaluated {A} (r : completion A) : js obj A := fun this c => (r, this, c).

Definition constructor (buffer : jsvalue) (successCallback : option jsfunction)
  : completion obj :=
  andThen (Tone.new_Player buffer successCallback) (fun p =>
  let '(n, r) := Tone.toDestination (Tone.PlayerNode p) in
  andThen r (fun _ =>
  Normal (mk (Tone.set_player_native n p) false 1%float))).

(** The callback [loadSound] passes: it decrements the host's
    preload counter. *)
Definition decrementPreload : jsfunction := 0.

Definition loadSound (path : jsvalue) : completion obj :=
  constructor path (Some decrementPreload).

Definition getNode : js obj (Tone.node Tone.native) :=
  gets (fun this => Tone.PlayerNode (soundfile this)).

(** [destination] is the completion of [destination.getNode()]. *)
Definition connect (destination : completion (Tone.node Tone.native)) : js obj jsvalue :=
  d <- evaluated destination ;;
  on_soundfile (fun p => Tone.connect (Tone.PlayerNode p) d) ;;
  ret VUndefined.

Definition disconnect : js obj jsvalue :=
  on_soundfile (fun p => Tone.disconnect (Tone.PlayerNode p) Tone.Context_destination) ;;
  ret VUndefined.

Definition start : js obj jsvalue :=
  r <- gets rate ;;
  assign (Tone.set_playbackRate r) Tone.playbackRate_set ;;
  on_soundfile Tone.Player_start ;;
  modify (set_playing true) ;;
  ret VUndefined.

Definition play : js obj jsvalue :=
  r <- gets rate ;;
  assign (Tone.set_playbackRate r) Tone.playbackRate_set ;;
  r' <- gets rate ;;
  console_log [VNum r'] ;;
  on_soundfile Tone.Player_start ;;
  modify (set_playing true) ;;
  ret VUndefined.

Definition stop : js obj jsvalue :=
  on_soundfile Tone.Player_stop ;;
  ret VUndefined.

Definition pause : js obj jsvalue :=
  assign (Tone.set_playbackRate 0%float) Tone.playbackRate_set ;;
  modify (set_playing false) ;;
  ret VUndefined.

(** [loop(value = true)]; [None] is an omitted argument. *)
Definition loop (value : option bool) : js obj jsvalue :=
  let value := match value with Some b => b | None => true end in
  modify (set_soundfile (Tone.set_loop value)) ;;
  ret VUndefined.

(** [loopPoints(startTime = 0, duration = this.soundfile.buffer.duration,
    schedule = 0)]; the defaults are evaluated left to right before
    the body runs. *)
Definition loopPoints (startTime duration schedule : option float) : js obj jsvalue :=
  let startTime := match startTime with Some x => x | None => 0%float end in
  duration <- match duration with
              | Some d => ret d
              | None => gets (fun this => Tone.buffer_duration (Tone.buffer (soundfile this)))
              end ;;
  let schedule := match schedule with Some x => x | None => 0%float end in
  assign (Tone.set_loopStart startTime) Tone.loopStart_set ;;
  assign (Tone.set_loopEnd (startTime + duration)%float) Tone.loopEnd_set ;;
  ret VUndefined.

Definition amp (value : float) : js obj jsvalue :=
  let dbValue := Tone.gainToDb value in
  assign_volume dbValue ;;
  ret VUndefined.

(** The prototype method [rate(value)].  On an instance the own
    property [rate] written by the constructor is found first. *)
Definition proto_rate (value : float) : js obj jsvalue :=
  assign (Tone.set_playbackRate value) Tone.playbackRate_set ;;
  modify (set_rate value) ;;
  ret VUndefined.

Definition duration : js obj jsvalue :=
  b <- gets (fun this => Tone.buffer (soundfile this)) ;;
  ret (VNum (Tone.buffer_duration b)).

Definition sampleRate : js obj jsvalue :=
  b <- gets (fun this => Tone.buffer (soundfile this)) ;;
  if truthy b then ret (VNum (Tone.buffer_sampleRate b)) else ret VUndefined.

(** [return currentTime;] names a variable that is declared nowhere. *)
Definition currentTime : js obj jsvalue := throw ReferenceError.

Definition jump (value : float) : js obj jsvalue :=
  on_soundfile (fun p => Tone.Player_seek p value) ;;
  ret VUndefined.

Definition isPlaying : js obj jsvalue :=
  b <- gets playing ;;
  ret (VBool b).

Definition isLooping : js obj jsvalue :=
  b <- gets (fun this => Tone.loop (soundfile this)) ;;
  ret (VBool b).

Definition onended (callback : option jsfunction) : js obj jsvalue :=
  modify (set_soundfile (Tone.set_onstop callback)) ;;
  ret VUndefined.

Definition frames : js obj jsvalue :=
  b <- gets (fun this => Tone.buffer (soundfile this)) ;;
  if truthy b then ret (VNum (Tone.buffer_length b)) else ret VUndefined.

Definition channels : js obj jsvalue :=
  b <- gets (fun this => Tone.buffer (soundfile this)) ;;
  if truthy b then ret (VNum (Tone.buffer_numberOfChannels b)) else ret VUndefined.

End WithEngine.
End SoundFile.

(** ** class Noise *)

Module Noise.
Section WithEngine.
Context {E : Tone.Engine}.

Record obj : Type := mk { noise : Tone.Noise Tone.native }.

Definition set_noise (f : Tone.Noise Tone.native -> Tone.Noise Tone.native)
           (this : obj) : obj :=
  mk (f (noise this)).

Definition on_noise
           (op : Tone.Noise Tone.native -> Tone.native * completion unit) : js obj unit :=
  fun this c =>
    let '(n, r) := op (noise this) in
    (r, set_noise (Tone.set_noise_native n) this, c).

Definition evaluated {A} (r : completion A) : js obj A := fun this c => (r, this, c).

(** [this.noise.type = t], through a setter that checks first: [t] is
    stored when the engine accepts it. *)
Definition assign_type (t : jsvalue) : js obj unit :=
  fun this c =>
    let '(n, r) := Tone.Noise_type_set (noise this) t in
    match r with
    | Normal _ => (Normal tt, mk (Tone.mkNoise t n), c)
    | Throw e => (Throw e, set_noise (Tone.set_noise_native n) this, c)
    end.

Definition constructor (type : jsvalue) : completion obj :=
  let type := match type with VUndefined => VStr "white" | _ => type end in
  andThen Tone.new_Noise (fun n =>
  let '(s, r) := Tone.toDestination (Tone.NoiseNode n) in
  andThen r (fun _ =>
  let '(s', r') := Tone.Noise_type_set (Tone.set_noise_native s n) type in
  andThen r' (fun _ =>
  Normal (mk (Tone.mkNoise type s'))))).

Definition type (t : jsvalue) : js obj jsvalue :=
  assign_type t ;;
  ret VUndefined.

Definition getNode : js obj (Tone.node Tone.native) :=
  gets (fun this => Tone.NoiseNode (noise this)).

Definition connect (destination : completion (Tone.node Tone.native)) : js obj jsvalue :=
  d <- evaluated destination ;;
  on_noise (fun n => Tone.connect (Tone.NoiseNode n) d) ;;
  ret VUndefined.

Definition disconnect : js obj jsvalue :=
  on_noise (fun n => Tone.disconnect (Tone.NoiseNode n) Tone.Context_destination) ;;
  ret VUndefined.

Definition start : js obj jsvalue :=
  on_noise Tone.Noise_start ;;
  ret VUndefined.

Definition stop : js obj jsvalue :=
  on_noise Tone.Noise_stop ;;
  ret VUndefined.

End WithEngine.
End Noise.

(** ** class FFT *)

Module FFT.
Section WithEngine.
Context {E : Tone.Engine}.

(** [this]: the four own properties the constructor creates. *)
Record obj : Type := mk {
  fftSize : jsvalue;
  analyzer : Tone.native;
  waveform : Tone.native;
  gain : Tone.native
}.

Definition set_analyzer (a : Tone.native) (this : obj) : obj :=
  mk (fftSize this) a (waveform this) (gain this).

Definition constructor (fftSize : jsvalue) : completion obj :=
  let fftSize := match fftSize with VUndefined => VNum 32%float | _ => fftSize end in
  andThen (Tone.new_FFT fftSize true) (fun analyzer =>
  andThen Tone.new_Waveform (fun waveform =>
  andThen (Tone.new_Gain 1%float) (fun gain =>
  let '(gain, r) := Tone.connect (Tone.GainNode gain) (Tone.FFTNode analyzer) in
  andThen r (fun _ =>
  let '(gain, r) := Tone.connect (Tone.GainNode gain) (Tone.WaveformNode waveform) in
  andThen r (fun _ =>
  Normal (mk fftSize analyzer waveform gain)))))).

(** What a method of the class hands back to its caller. *)
Inductive result : Type :=
| Value (v : jsvalue)
| Node (n : Tone.node Tone.native)
| Samples (l : list float).

(** The methods on [FFT.prototype]. *)
Inductive method : Type := getNode | analyze | proto_waveform.

Definition body (m : method) : js obj result :=
  match m with
  | getNode =>
      g <- gets gain ;;
      ret (Node (Tone.GainNode g))
  | analyze =>
      fun this c =>
        let '(a, r) := Tone.FFT_getValue (analyzer this) in
        match r with
        | Normal l => (Normal (Samples l), set_analyzer a this, c)
        | Throw e => (Throw e, set_analyzer a this, c)
        end
  | proto_waveform =>
      console_log [VStr "waveform"] ;;
      ret (Value VUndefined)
  end.

(** Property lookup [this.name]: an own property is found before a
    property of the prototype. *)
Inductive slot : Type :=
| Data (v : jsvalue)
| EngineObject (n : Tone.node Tone.native)
| Method (m : method).

Definition own_property (this : obj) (name : string) : option slot :=
  if name =? "fftSize" then Some (Data (fftSize this))
  else if name =? "analyzer" then Some (EngineObject (Tone.FFTNode (analyzer this)))
  else if name =? "waveform" then Some (EngineObject (Tone.WaveformNode (waveform this)))
  else if name =? "gain" then Some (EngineObject (Tone.GainNode (gain this)))
  else None.

Definition prototype (name : string) : option method :=
  if name =? "getNode" then Some getNode
  else if name =? "analyze" then Some analyze
  else if name =? "waveform" then Some proto_waveform
  else None.

(** Names that neither the instance nor the class defines read as
    [undefined] (what [Object.prototype] adds is left out). *)
Definition get (this : obj) (name : string) : slot :=
  match own_property this name with
  | Some s => s
  | None =>
      match prototype name with
      | Some m => Method m
      | None => Data VUndefined
      end
  end.

(** The call [this.name()]: only a function can be called; a value
    or an engine object in that position throws a TypeError. *)
Definition call (name : string) : js obj result :=
  fun this c =>
    match get this name with
    | Method m => body m this c
    | Data _ | EngineObject _ => (Throw TypeError, this, c)
    end.

End WithEngine.
End FFT.

(** ** A small engine to run the wrappers on

    [Sim] is one inhabitant of [Tone.Engine], used to evaluate the
    wrappers on concrete inputs.  A node's engine state records whether
    it is started, how many outgoing edges it has and whether it holds
    a source that was created but never started.  As in Tone.js, a
    player refuses to start before its buffer is decoded and is then left
    with such a source, on which the setter of [playbackRate] throws; the
    setters of [loopStart] and [loopEnd] check the range against a decoded
    buffer; [volume.value] refuses NaN and +Infinity; a noise accepts the
    colours white, pink and brown. *)

Module Sim.

Record state : Type := mkState { started : bool; edges : nat; pending : bool }.

Definition fresh : state := mkState false 0 false.

Definition state_of (n : Tone.node state) : state :=
  match n with
  | Tone.PlayerNode p => Tone.player_native p
  | Tone.NoiseNode n => Tone.noise_native n
  | Tone.GainNode g => g
  | Tone.FFTNode a => a
  | Tone.WaveformNode w => w
  end.

Definition add_edge (s : state) : state := mkState (started s) (S (edges s)) (pending s).
Definition drop_edges (s : state) : state := mkState (started s) 0 (pending s).
Definition set_started (b : bool) (s : state) : state := mkState b (edges s) (pending s).
Definition set_pending (b : bool) (s : state) : state := mkState (started s) (edges s) b.

(** "buffer is either not set or not loaded" *)
Definition no_buffer : exn := EngineError 1.
(** "Source is not started" *)
Definition not_started : exn := EngineError 2.
(** "Noise: invalid type" *)
Definition invalid_type : exn := EngineError 3.

Definition in_range (x : float) (p : Tone.Player state) : bool :=
  match Tone.decoded (Tone.buffer p) with
  | Some a => ((0 <=? x) && (x <=? Tone.duration a))%float
  | None => true
  end.

Definition colour (t : jsvalue) : bool :=
  match t with
  | VStr s => (s =? "white") || (s =? "pink") || (s =? "brown")
  | _ => false
  end.

(** [Math.LN2] *)
Definition LN2 : float := 0x1.62e42fefa39efp-1%float.

(** An approximation of the natural logarithm, exact at 0 and at 1:
    for [x = m * 2^k] with [m] between the square roots of 1/2 and of 2,
    [k * ln 2] plus the series of [2 * atanh ((m - 1) / (m + 1))]. *)
Definition log (x : float) : float :=
  if (x =? 0)%float then neg_infinity
  else if (0 <? x)%float then
    if (x <? infinity)%float then
      let '(m, e) := frshiftexp x in
      let low := (m <? 0x1.6a09e667f3bcdp-1)%float in
      let m := if low then (2 * m)%float else m in
      let k := if low then (of_uint63 e - 2102)%float else (of_uint63 e - 2101)%float in
      let z := ((m - 1) / (m + 1))%float in
      let z2 := (z * z)%float in
      let series :=
        (2 * z * (1 + z2 * (1 / 3 + z2 * (1 / 5 + z2 * (1 / 7 + z2 * (1 / 9
           + z2 * (1 / 11 + z2 * (1 / 13 + z2 * (1 / 15)))))))))%float in
      (k * LN2 + series)%float
    else infinity
  else nan.

#[export] Instance engine : Tone.Engine := {|
  Tone.native := state;
  Tone.new_Player := fun _ _ =>
    Normal (Tone.mkPlayer 1%float false 0%float 0%float 0%float
                          (Tone.mkToneAudioBuffer None) None fresh);
  Tone.new_Noise := Normal (Tone.mkNoise (VStr "white") fresh);
  Tone.new_FFT := fun _ _ => Normal fresh;
  Tone.new_Waveform := Normal fresh;
  Tone.new_Gain := fun _ => Normal fresh;
  Tone.toDestination := fun n => (add_edge (state_of n), Normal tt);
  Tone.connect := fun n _ => (add_edge (state_of n), Normal tt);
  Tone.Context_destination := VUndefined;
  Tone.disconnect := fun n _ => (drop_edges (state_of n), Normal tt);
  Tone.Player_start := fun p =>
    match Tone.decoded (Tone.buffer p) with
    | Some _ => (set_started true (Tone.player_native p), Normal tt)
    | None => (set_pending true (Tone.player_native p), Throw no_buffer)
    end;
  Tone.Player_stop := fun p => (set_started false (Tone.player_native p), Normal tt);
  Tone.Player_seek := fun p _ => (Tone.player_native p, Normal tt);
  Tone.Noise_start := fun n => (set_started true (Tone.noise_native n), Normal tt);
  Tone.Noise_stop := fun n => (set_started false (Tone.noise_native n), Normal tt);
  Tone.FFT_getValue := fun a => (a, Normal []);
  Tone.playbackRate_set := fun p =>
    (Tone.player_native p,
     if pending (Tone.player_native p) then Throw not_started else Normal tt);
  Tone.loopStart_set := fun p =>
    (Tone.player_native p,
     if in_range (Tone.loopStart p) p then Normal tt else Throw RangeError);
  Tone.loopEnd_set := fun p =>
    (Tone.player_native p,
     if in_range (Tone.loopEnd p) p then Normal tt else Throw RangeError);
  Tone.volume_set := fun p v =>
    (Tone.player_native p, if (v <? infinity)%float then Normal tt else Throw RangeError);
  Tone.Noise_type_set := fun n t =>
    (Tone.noise_native n, if colour t then Normal tt else Throw invalid_type);
  Tone.Context_sampleRate := 48000%float;
  Tone.Math_log := log;
  Tone.Math_log_zero := eq_refl
|}.

(** A ten-second stereo buffer at 44.1 kHz. *)
Definition ten_seconds : Tone.AudioBuffer :=
  Tone.mkAudioBuffer 10%float 44100%float 441000%float 2%float.

Definition loaded_player : Tone.Player state :=
  Tone.mkPlayer 1%float false 0%float 0%float 0%float
                (Tone.mkToneAudioBuffer (Some ten_seconds)) None fresh.

Definition unloaded_player : Tone.Player state :=
  Tone.mkPlayer 1%float false 0%float 0%float 0%float
                (Tone.mkToneAudioBuffer None) None fresh.

(** A sound file whose buffer has been decoded, and one still loading. *)
Definition loaded : SoundFile.obj := SoundFile.mk loaded_player false 1%float.
Definition unloaded : SoundFile.obj := SoundFile.mk unloaded_player false 1%float.

End Sim.

(** ** Calls made on the instances

    A sketch drives an instance through call expressions [obj.m(args)].
    The name [m] is looked up on the instance first and on the class
    prototype next, and the value found is called; a value that is not a
    function throws a TypeError.  A [session] is the succession of such
    calls over the life of an instance, each made from its own event
    handler: an exception ends the handler that made the call, and the
    following calls still run. *)

Module SoundFileCalls.
Section WithEngine.
Context {E : Tone.Engine}.

(** What a method of the class hands back to its caller. *)
Inductive result : Type :=
| Value (v : jsvalue)
| Node (n : Tone.node Tone.native).

(** The methods on [SoundFile.prototype], with their arguments. *)
Inductive invocation : Type :=
| getNode
| connect (destination : completion (Tone.node Tone.native))
| disconnect
| start
| play
| stop
| pause
| loop (value : option bool)
| loopPoints (startTime duration schedule : option float)
| amp (value : float)
| rate (value : float)
| duration
| sampleRate
| currentTime
| jump (value : float)
| isPlaying
| isLooping
| onended (callback : option jsfunction)
| frames
| channels.

Definition name (m : invocation) : string :=
  match m with
  | getNode => "getNode"
  | connect _ => "connect"
  | disconnect => "disconnect"
  | start => "start"
  | play => "play"
  | stop => "stop"
  | pause => "pause"
  | loop _ => "loop"
  | loopPoints _ _ _ => "loopPoints"
  | amp _ => "amp"
  | rate _ => "rate"
  | duration => "duration"
  | sampleRate => "sampleRate"
  | currentTime => "currentTime"
  | jump _ => "jump"
  | isPlaying => "isPlaying"
  | isLooping => "isLooping"
  | onended _ => "onended"
  | frames => "frames"
  | channels => "channels"
  end.

Definition valued (m : js SoundFile.obj jsvalue) : js SoundFile.obj result :=
  v <- m ;; ret (Value v).

Definition body (m : invocation) : js SoundFile.obj result :=
  match m with
  | getNode => n <- SoundFile.getNode ;; ret (Node n)
  | connect destination => valued (SoundFile.connect destination)
  | disconnect => valued SoundFile.disconnect
  | start => valued SoundFile.start
  | play => valued SoundFile.play
  | stop => valued SoundFile.stop
  | pause => valued SoundFile.pause
  | loop value => valued (SoundFile.loop value)
  | loopPoints startTime length schedule =>
      valued (SoundFile.loopPoints startTime length schedule)
  | amp value => valued (SoundFile.amp value)
  | rate value => valued (SoundFile.proto_rate value)
  | duration => valued SoundFile.duration
  | sampleRate => valued SoundFile.sampleRate
  | currentTime => valued SoundFile.currentTime
  | jump value => valued (SoundFile.jump value)
  | isPlaying => valued SoundFile.isPlaying
  | isLooping => valued SoundFile.isLooping
  | onended callback => valued (SoundFile.onended callback)
  | frames => valued SoundFile.frames
  | channels => valued SoundFile.channels
  end.

(** The own properties of an instance: the three the constructor
    writes.  None of them holds a function. *)
Inductive slot : Type :=
| Data (v : jsvalue)
| EngineObject (n : Tone.node Tone.native).

Definition own_property (this : SoundFile.obj) (name : string) : option slot :=
  if name =? "soundfile"
  then Some (EngineObject (Tone.PlayerNode (SoundFile.soundfile this)))
  else if name =? "playing" then Some (Data (VBool (SoundFile.playing this)))
  else if name =? "rate" then Some (Data (VNum (SoundFile.rate this)))
  else None.

(** The call [this.m(args)]. *)
Definition call (m : invocation) : js SoundFile.obj result :=
  fun this c =>
    match own_property this (name m) with
    | Some _ => (Throw TypeError, this, c)
    | None => body m this c
    end.

Fixpoint session (calls : list invocation) (this : SoundFile.obj) (c : console)
  : SoundFile.obj * console :=
  match calls with
  | [] => (this, c)
  | m :: rest => session rest (final (call m this c)) (output (call m this c))
  end.

Definition is_pause (m : invocation) : bool :=
  match m with pause => true | _ => false end.

Definition is_start_or_play (m : invocation) : bool :=
  match m with start | play => true | _ => false end.

Definition is_play (m : invocation) : bool :=
  match m with play => true | _ => false end.

Definition is_loopPoints (m : invocation) : bool :=
  match m with loopPoints _ _ _ => true | _ => false end.

(** The same call with [start] written for [play]. *)
Definition as_start (m : invocation) : invocation :=
  match m with play => start | _ => m end.

(** The argument of the latest [loop()] call of a session, [true] for
    an omitted one; [before] when the session has none. *)
Definition latest_loop (before : bool) (calls : list invocation) : bool :=
  fold_left (fun acc m =>
               match m with
               | loop (Some b) => b
               | loop None => true
               | _ => acc
               end) calls before.

(** The value the latest of [start()], [play()] and [pause()] leaves in
    [playbackRate]: the stored rate [r] for the first two, 0 for the
    third; [before] when the session has none of them. *)
Definition latest_playbackRate (r before : float) (calls : list invocation) : float :=
  fold_left (fun acc m =>
               match m with
               | start | play => r
               | pause => 0%float
               | _ => acc
               end) calls before.

End WithEngine.
End SoundFileCalls.

Module NoiseCalls.
Section WithEngine.
Context {E : Tone.Engine}.

Inductive result : Type :=
| Value (v : jsvalue)
| Node (n : Tone.node Tone.native).

(** The methods on [Noise.prototype], with their arguments. *)
Inductive invocation : Type :=
| type (t : jsvalue)
| getNode
| connect (destination : completion (Tone.node Tone.native))
| disconnect
| start
| stop.

Definition name (m : invocation) : string :=
  match m with
  | type _ => "type"
  | getNode => "getNode"
  | connect _ => "connect"
  | disconnect => "disconnect"
  | start => "start"
  | stop => "stop"
  end.

Definition valued (m : js Noise.obj jsvalue) : js Noise.obj result :=
  v <- m ;; ret (Value v).

Definition body (m : invocation) : js Noise.obj result :=
  match m with
  | type t => valued (Noise.type t)
  | getNode => n <- Noise.getNode ;; ret (Node n)
  | connect destination => valued (Noise.connect destination)
  | disconnect => valued Noise.disconnect
  | start => valued Noise.start
  | stop => valued Noise.stop
  end.

(** The one own property of an instance, [noise], holds an engine node. *)
Definition own_property (this : Noise.obj) (name : string)
  : option (Tone.node Tone.native) :=
  if name =? "noise" then Some (Tone.NoiseNode (Noise.noise this)) else None.

Definition call (m : invocation) : js Noise.obj result :=
  fun this c =>
    match own_property this (name m) with
    | Some _ => (Throw TypeError, this, c)
    | None => body m this c
    end.

Fixpoint session (calls : list invocation) (this : Noise.obj) (c : console)
  : Noise.obj * console :=
  match calls with
  | [] => (this, c)
  | m :: rest => session rest (final (call m this c)) (output (call m this c))
  end.

(** The arguments of the [type()] calls of a session. *)
Fixpoint type_arguments (calls : list invocation) : list jsvalue :=
  match calls with
  | [] => []
  | type t :: rest => t :: type_arguments rest
  | _ :: rest => type_arguments rest
  end.

End WithEngine.
End NoiseCalls.

Module FFTCalls.
Section WithEngine.
Context {E : Tone.Engine}.

(** The name under which a method of [FFT.prototype] is called. *)
Definition name (m : FFT.method) : string :=
  match m with
  | FFT.getNode => "getNode"
  | FFT.analyze => "analyze"
  | FFT.proto_waveform => "waveform"
  end.

Fixpoint session (calls : list FFT.method) (this : FFT.obj) (c : console)
  : FFT.obj * console :=
  match calls with
  | [] => (this, c)
  | m :: rest =>
      session rest (final (FFT.call (name m) this c)) (output (FFT.call (name m) this c))
  end.

End WithEngine.
End FFTCalls.

(** ** Vocabulary of the properties *)

(** The calls of [loopPoints] that the data model allows on a loaded
    sound file: a start that is not negative, a positive duration, and a
    region that ends within the buffer. *)
Definition valid_loop_call {E : Tone.Engine} (this : SoundFile.obj)
           (startTime duration : float) : bool :=
  match Tone.decoded (Tone.buffer (SoundFile.soundfile this)) with
  | Some b =>
      ((0 <=? startTime) && (0 <? duration)
       && (startTime + duration <=? Tone.duration b))%float
  | None => false
  end.

(** The loop region of a sound file is not empty: [loopEnd > loopStart]. *)
Definition loop_region_ok {E : Tone.Engine} (this : SoundFile.obj) : bool :=
  (Tone.loopStart (SoundFile.soundfile this) <? Tone.loopEnd (SoundFile.soundfile this))%float.

(** The node [start()] and [play()] hand to the engine: [this.soundfile]
    with the stored rate written to [playbackRate]. *)
Definition primed {E : Tone.Engine} (s : SoundFile.obj) : Tone.Player Tone.native :=
  Tone.set_playbackRate (SoundFile.rate s) (SoundFile.soundfile s).

(** The same node as the setter of [playbackRate] leaves it. *)
Definition tuned {E : Tone.Engine} (s : SoundFile.obj) : Tone.Player Tone.native :=
  Tone.set_player_native (fst (Tone.playbackRate_set (primed s))) (primed s).

(** The node [pause()] hands to the setter of [playbackRate]:
    [this.soundfile] with 0 written to [playbackRate]. *)
Definition halted {E : Tone.Engine} (s : SoundFile.obj) : Tone.Player Tone.native :=
  Tone.set_playbackRate 0%float (SoundFile.soundfile s).

(** * Properties *)

(** A constructor that returned has passed each of its engine calls:
    [returned H] splits the calls in [H : constructor _ = Normal _] and
    drops the cases where one of them threw. *)
Ltac returned H :=
  unfold andThen in H;
  repeat match type of H with
         | context [match ?r with Normal _ => _ | Throw _ => _ end] =>
             destruct r as [?|?] eqn:?; [|discriminate H]
         | context [let '(_, _) := ?x in _] => destruct x as [? ?] eqn:?
         end;
  injection H as <-.

(** ** Running a method: one equation per method *)

Section SoundFileEquations.
Context {E : Tone.Engine}.
Import SoundFile.

Lemma start_run (s : obj) (c : console) :
  start s c =
  match snd (Tone.playbackRate_set (primed s)) with
  | Throw e => (Throw e, mk (tuned s) (playing s) (rate s), c)
  | Normal _ =>
      match snd (Tone.Player_start (tuned s)) with
      | Normal _ =>
          (Normal VUndefined,
           mk (Tone.set_player_native (fst (Tone.Player_start (tuned s))) (tuned s))
              true (rate s), c)
      | Throw e =>
          (Throw e,
           mk (Tone.set_player_native (fst (Tone.Player_start (tuned s))) (tuned s))
              (playing s) (rate s), c)
      end
  end.
Proof.
  unfold start, assign, bind, gets, modify, on_soundfile, ret, tuned, primed; simpl.
  destruct (Tone.playbackRate_set _) as [n [[]|e]]; simpl; [|reflexivity].
  destruct (Tone.Player_start _) as [n' [[]|e]]; reflexivity.
Qed.

Lemma play_run (s : obj) (c : console) :
  play s c =
  match snd (Tone.playbackRate_set (primed s)) with
  | Throw e => (Throw e, mk (tuned s) (playing s) (rate s), c)
  | Normal _ =>
      match snd (Tone.Player_start (tuned s)) with
      | Normal _ =>
          (Normal VUndefined,
           mk (Tone.set_player_native (fst (Tone.Player_start (tuned s))) (tuned s))
              true (rate s), (c ++ [[VNum (rate s)]])%list)
      | Throw e =>
          (Throw e,
           mk (Tone.set_player_native (fst (Tone.Player_start (tuned s))) (tuned s))
              (playing s) (rate s), (c ++ [[VNum (rate s)]])%list)
      end
  end.
Proof.
  unfold play, assign, bind, gets, modify, on_soundfile, console_log, ret, tuned, primed;
    simpl.
  destruct (Tone.playbackRate_set _) as [n [[]|e]]; simpl; [|reflexivity].
  destruct (Tone.Player_start _) as [n' [[]|e]]; reflexivity.
Qed.

Lemma stop_run (s : obj) (c : console) :
  stop s c =
  (match snd (Tone.Player_stop (soundfile s)) with
   | Normal _ => Normal VUndefined
   | Throw e => Throw e
   end,
   mk (Tone.set_player_native (fst (Tone.Player_stop (soundfile s))) (soundfile s))
      (playing s) (rate s), c).
Proof.
  unfold stop, bind, on_soundfile, ret; simpl.
  destruct (Tone.Player_stop _) as [n [[]|e]]; reflexivity.
Qed.

Lemma pause_run (s : obj) (c : console) :
  pause s c =
  match snd (Tone.playbackRate_set (halted s)) with
  | Normal _ =>
      (Normal VUndefined,
       mk (Tone.set_player_native (fst (Tone.playbackRate_set (halted s))) (halted s))
          false (rate s), c)
  | Throw e =>
      (Throw e,
       mk (Tone.set_player_native (fst (Tone.playbackRate_set (halted s))) (halted s))
          (playing s) (rate s), c)
  end.
Proof.
  unfold pause, assign, bind, modify, on_soundfile, ret, halted; simpl.
  destruct (Tone.playbackRate_set _) as [n [[]|e]]; reflexivity.
Qed.

Lemma isPlaying_run (s : obj) (c : console) :
  isPlaying s c = (Normal (VBool (playing s)), s, c).
Proof. reflexivity. Qed.

(** [stop()] writes nothing but the engine's state of the player. *)
Lemma stop_keeps_flag (s : obj) (c : console) :
  playing (final (stop s c)) = playing s.
Proof. rewrite stop_run. reflexivity. Qed.

End SoundFileEquations.

(** ** SoundFile: transport, loop region and buffer queries *)

Section SoundFileProperties.
Context {E : Tone.Engine}.
Import SoundFile.

(** C1, as the code behaves: when [start()] has returned, [isPlaying()]
    answers [true]; when [stop()] is then called and has returned,
    [isPlaying()] still answers [true], because [stop()] only forwards
    to the engine and never writes [this.playing]. *)
Theorem isPlaying_after_start_then_stop (s : obj) (c : console) :
  outcome (start s c) = Normal VUndefined ->
  outcome (stop (final (start s c)) (output (start s c))) = Normal VUndefined ->
  let s1 := final (start s c) in
  let s2 := final (stop s1 (output (start s c))) in
  outcome (isPlaying s1 c) = Normal (VBool true) /\
  outcome (isPlaying s2 c) = Normal (VBool true).
Proof.
  intros Hstart _ s1 s2.
  assert (H1 : playing s1 = true).
  { subst s1. revert Hstart. rewrite start_run.
    destruct (snd (Tone.playbackRate_set (primed s))); [|discriminate].
    destruct (snd (Tone.Player_start (tuned s))); [reflexivity | discriminate]. }
  split.
  - rewrite isPlaying_run. unfold outcome; simpl. now rewrite H1.
  - rewrite isPlaying_run. unfold outcome; simpl.
    subst s2. now rewrite stop_keeps_flag, H1.
Qed.

(** C4, as the code behaves: while the buffer holds no decoded data yet,
    the object [this.soundfile.buffer] is there all the same, so the
    guards of [sampleRate()], [channels()] and [frames()] pass and no
    query returns [undefined]: [duration()], [frames()] and [channels()]
    return 0 and [sampleRate()] returns the sample rate of the audio
    context.  None of them throws. *)
Theorem metadata_queries_while_loading (s : obj) (c : console) :
  Tone.decoded (Tone.buffer (soundfile s)) = None ->
  duration s c = (Normal (VNum 0%float), s, c) /\
  sampleRate s c = (Normal (VNum Tone.Context_sampleRate), s, c) /\
  channels s c = (Normal (VNum 0%float), s, c) /\
  frames s c = (Normal (VNum 0%float), s, c).
Proof.
  intros Hb.
  unfold duration, sampleRate, channels, frames, truthy, bind, gets, ret,
    Tone.buffer_duration, Tone.buffer_sampleRate, Tone.buffer_length,
    Tone.buffer_numberOfChannels.
  rewrite Hb. auto.
Qed.

(** C5: from every state, [start()] and [play()] complete the same way
    and leave the same sound file.  Both write the stored rate to
    [playbackRate]; when the engine's setter throws, both throw there,
    with the playing flag as it was; when it returns, both call the
    engine's [start] on that node and set the playing flag to [true]
    once that call has returned (the flag is left as it was when it
    throws).  The one difference is outside the sound file: [play()]
    logs the rate to the console between the assignment and the engine
    call. *)
Theorem start_play_same_transition (s : obj) (c : console) :
  outcome (play s c) = outcome (start s c) /\
  final (play s c) = final (start s c) /\
  Tone.playbackRate (soundfile (final (start s c))) = rate s /\
  rate (final (start s c)) = rate s /\
  output (start s c) = c /\
  match snd (Tone.playbackRate_set (primed s)) with
  | Throw e =>
      outcome (start s c) = Throw e /\
      soundfile (final (start s c)) = tuned s /\
      playing (final (start s c)) = playing s /\
      output (play s c) = c
  | Normal _ =>
      Tone.player_native (soundfile (final (start s c)))
        = fst (Tone.Player_start (tuned s)) /\
      output (play s c) = (c ++ [[VNum (rate s)]])%list /\
      match snd (Tone.Player_start (tuned s)) with
      | Normal _ =>
          outcome (start s c) = Normal VUndefined /\
          playing (final (start s c)) = true
      | Throw e =>
          outcome (start s c) = Throw e /\
          playing (final (start s c)) = playing s
      end
  end.
Proof.
  rewrite start_run, play_run.
  destruct (snd (Tone.playbackRate_set (primed s)));
    [destruct (snd (Tone.Player_start (tuned s)))|];
    unfold outcome, final, output; simpl; repeat split.
Qed.

(** C6, amended: [pause()] writes 0 to [playbackRate] and never the
    stored rate, and makes no engine call but that assignment.  When the
    engine's setter returns, [pause()] sets the playing flag to [false]
    and returns; when the setter throws, [pause()] throws and the flag is
    left as it was.  A following [start()] writes the stored rate back to
    [playbackRate] and, when the setter returns, calls the engine's
    [start] on that node. *)
Theorem pause_then_start (s : obj) (c : console) :
  let s' := final (pause s c) in
  Tone.playbackRate (soundfile s') = 0%float /\
  rate s' = rate s /\
  output (pause s c) = c /\
  soundfile s'
    = Tone.set_player_native (fst (Tone.playbackRate_set (halted s))) (halted s) /\
  match snd (Tone.playbackRate_set (halted s)) with
  | Normal _ => outcome (pause s c) = Normal VUndefined /\ playing s' = false
  | Throw e => outcome (pause s c) = Throw e /\ playing s' = playing s
  end /\
  Tone.playbackRate (soundfile (final (start s' c))) = rate s /\
  match snd (Tone.playbackRate_set (primed s')) with
  | Normal _ =>
      Tone.player_native (soundfile (final (start s' c)))
        = fst (Tone.Player_start (tuned s')) /\
      outcome (start s' c)
        = match snd (Tone.Player_start (tuned s')) with
          | Normal _ => Normal VUndefined
          | Throw e => Throw e
          end
  | Throw e => outcome (start s' c) = Throw e
  end.
Proof.
  intros s'.
  rewrite (start_run s' c).
  assert (Hpause : pause s c = pause s c) by reflexivity.
  rewrite pause_run in Hpause at 2.
  subst s'. revert Hpause.
  generalize (pause s c) as r. intros r ->.
  destruct (snd (Tone.playbackRate_set (halted s))); unfold final at 1 2 3 4 5; simpl;
    (repeat (split; [reflexivity|]));
    match goal with
    | |- context [primed ?x] =>
        destruct (snd (Tone.playbackRate_set (primed x)));
          [destruct (snd (Tone.Player_start (tuned x)))|]
    end;
    unfold outcome, final, output; simpl; repeat split.
Qed.

(** C7, amended: for all numbers [startTime] and [duration], a call
    [loopPoints(startTime, duration)] that returns has written
    [loopStart = startTime] and [loopEnd = startTime + duration] (the
    binary64 sum); afterwards [loopEnd > loopStart] holds exactly when
    that sum is greater than [startTime]. *)
Theorem loopPoints_sets_region (s : obj) (c : console)
        (startTime duration : float) (schedule : option float) :
  let r := loopPoints (Some startTime) (Some duration) schedule s c in
  outcome r = Normal VUndefined ->
  Tone.loopStart (soundfile (final r)) = startTime /\
  Tone.loopEnd (soundfile (final r)) = (startTime + duration)%float /\
  loop_region_ok (final r) = (startTime <? startTime + duration)%float.
Proof.
  unfold loopPoints, assign, bind, modify, on_soundfile, ret, loop_region_ok,
    outcome, final; simpl.
  destruct (Tone.loopStart_set _) as [n [[]|e]]; simpl; [|discriminate].
  destruct (Tone.loopEnd_set _) as [n' [[]|e]]; simpl; [|discriminate].
  repeat split.
Qed.


End SoundFileProperties.

(** On [Sim], with a decoded buffer: [start()] and [stop()] both return,
    and [isPlaying()] answers [true] after each. *)
Lemma isPlaying_after_start_then_stop_witness :
  let r1 := SoundFile.start Sim.loaded [] in
  let r2 := SoundFile.stop (final r1) (output r1) in
  (outcome r1 = Normal VUndefined /\ outcome r2 = Normal VUndefined) /\
  outcome (SoundFile.isPlaying (final r1) []) = Normal (VBool true) /\
  outcome (SoundFile.isPlaying (final r2) []) = Normal (VBool true).
Proof.
  split.
  - split; reflexivity.
  - apply (isPlaying_after_start_then_stop Sim.loaded []); reflexivity.
Defined.

(** On [Sim], while the sound file is still loading. *)
Lemma metadata_queries_while_loading_witness :
  Tone.decoded (Tone.buffer (SoundFile.soundfile Sim.unloaded)) = None /\
  SoundFile.duration Sim.unloaded [] = (Normal (VNum 0%float), Sim.unloaded, []) /\
  SoundFile.sampleRate Sim.unloaded [] = (Normal (VNum 48000%float), Sim.unloaded, []) /\
  SoundFile.channels Sim.unloaded [] = (Normal (VNum 0%float), Sim.unloaded, []) /\
  SoundFile.frames Sim.unloaded [] = (Normal (VNum 0%float), Sim.unloaded, []).
Proof.
  split.
  - reflexivity.
  - apply (metadata_queries_while_loading Sim.unloaded []). reflexivity.
Defined.

(** C6 as first stated fails.  On a sound file that is still loading,
    [start()] is refused by the engine; [pause()] then throws in the
    setter of [playbackRate] instead of pausing, and the [start()] that
    follows throws there too instead of resuming. *)
Lemma pause_after_refused_start_throws :
  let s1 := final (SoundFile.start Sim.unloaded []) in
  let s2 := final (SoundFile.pause s1 []) in
  outcome (SoundFile.start Sim.unloaded []) = Throw Sim.no_buffer /\
  outcome (SoundFile.pause s1 []) = Throw Sim.not_started /\
  outcome (SoundFile.start s2 []) = Throw Sim.not_started /\
  Sim.started (Tone.player_native (SoundFile.soundfile (final (SoundFile.start s2 []))))
    = false.
Proof. repeat split. Qed.

(** On [Sim], with a decoded buffer of ten seconds: [loopPoints(2, 3)]
    returns and leaves 2 and 5. *)
Lemma loopPoints_sets_region_witness :
  let r := SoundFile.loopPoints (Some 2%float) (Some 3%float) None Sim.loaded [] in
  outcome r = Normal VUndefined /\
  Tone.loopStart (SoundFile.soundfile (final r)) = 2%float /\
  Tone.loopEnd (SoundFile.soundfile (final r)) = 5%float /\
  loop_region_ok (final r) = true.
Proof.
  split; [reflexivity|].
  exact (loopPoints_sets_region Sim.loaded [] 2%float 3%float None eq_refl).
Defined.

(** On [Sim], with the same buffer: [loopPoints(-1, 2)] throws a
    RangeError in the setter of [loopStart], after the store of -1 and
    before [loopEnd] is written. *)
Lemma loopPoints_out_of_range :
  let r := SoundFile.loopPoints (Some (-1)%float) (Some 2%float) None Sim.loaded [] in
  outcome r = Throw RangeError /\
  Tone.loopStart (SoundFile.soundfile (final r)) = (-1)%float /\
  Tone.loopEnd (SoundFile.soundfile (final r)) = 0%float.
Proof. repeat split. Qed.


(** C7 as first stated fails.  On a sound file with a ten-second buffer,
    [loopPoints(1, 2^-60)] is a call with a start that is not negative, a
    positive duration and a region inside the buffer; the binary64 sum
    [1 + 2^-60] is [1], so the call leaves [loopEnd = loopStart = 1] and
    [loopEnd > loopStart] is false. *)
Lemma loopPoints_tiny_duration_empty_region :
  let r := SoundFile.loopPoints (Some 1%float) (Some 0x1p-60%float) None Sim.loaded [] in
  valid_loop_call Sim.loaded 1%float 0x1p-60%float = true /\
  outcome r = Normal VUndefined /\
  Tone.loopStart (SoundFile.soundfile (final r)) = 1%float /\
  Tone.loopEnd (SoundFile.soundfile (final r)) = 1%float /\
  loop_region_ok (final r) = false.
Proof. repeat split. Qed.

(** ** Noise: the colour is forwarded as given *)

Section NoiseProperties.
Context {E : Tone.Engine}.


End NoiseProperties.


(** ** FFT: the own property [waveform] hides the method *)

Section FFTProperties.
Context {E : Tone.Engine}.

(** C9: on an instance that [new FFT(fftSize)] has produced, the own
    property [waveform] holds the engine's Waveform node, which the
    lookup finds before the method [waveform] of the prototype; the call
    [this.waveform()] therefore throws a TypeError, changes nothing and
    never reaches the method's [console.log]. *)
Theorem FFT_waveform_call_throws (fftSize : jsvalue) (this : FFT.obj) :
  FFT.constructor fftSize = Normal this ->
  Tone.new_Waveform = Normal (FFT.waveform this) /\
  FFT.own_property this "waveform"
    = Some (FFT.EngineObject (Tone.WaveformNode (FFT.waveform this))) /\
  FFT.prototype "waveform" = Some FFT.proto_waveform /\
  forall c : console, FFT.call "waveform" this c = (Throw TypeError, this, c).
Proof.
  intros Hnew.
  repeat split.
  unfold FFT.constructor in Hnew. returned Hnew. reflexivity.
Qed.

End FFTProperties.

(** On [Sim]: [new FFT(32).waveform()] throws, while the method body, run
    directly, would have logged and returned [undefined]. *)
Lemma FFT_waveform_call_throws_witness :
  exists this : @FFT.obj Sim.engine,
    FFT.constructor (VNum 32%float) = Normal this /\
    FFT.call "waveform" this [] = (Throw TypeError, this, []) /\
    FFT.body FFT.proto_waveform this []
      = (Normal (FFT.Value VUndefined), this, [[VStr "waveform"]]).
Proof.
  exists (@FFT.mk Sim.engine (VNum 32%float) Sim.fresh Sim.fresh
                  (Sim.add_edge (Sim.add_edge Sim.fresh))).
  split; [reflexivity|].
  split.
  - exact (proj2 (proj2 (proj2
      (FFT_waveform_call_throws (E := Sim.engine) (VNum 32%float)
         (@FFT.mk Sim.engine (VNum 32%float) Sim.fresh Sim.fresh
                  (Sim.add_edge (Sim.add_edge Sim.fresh))) eq_refl))) []).
  - reflexivity.
Defined.

(** ** What the wrappers leave to the engine

    The remaining operations add nothing of their own to the engine's
    answer: the equations below are all that the source fixes about
    them. *)

Section Forwarding.
Context {E : Tone.Engine}.

(** [analyze()] hands back the array of the engine's [getValue()] as it
    is, or throws what that call throws. *)
Lemma analyze_forwards_getValue (this : FFT.obj) (c : console) :
  FFT.call "analyze" this c =
  (match snd (Tone.FFT_getValue (FFT.analyzer this)) with
   | Normal l => Normal (FFT.Samples l)
   | Throw e => Throw e
   end,
   FFT.set_analyzer (fst (Tone.FFT_getValue (FFT.analyzer this))) this, c).
Proof.
  unfold FFT.call; simpl.
  destruct (Tone.FFT_getValue (FFT.analyzer this)) as [a [l|e]]; reflexivity.
Qed.

(** The analyser is built with the constructor's argument as its [size]
    (32 when the argument is [undefined]) and [normalRange: true]. *)
Lemma FFT_constructor_passes_size (fftSize : jsvalue) (this : FFT.obj) :
  FFT.constructor fftSize = Normal this ->
  FFT.fftSize this = match fftSize with VUndefined => VNum 32%float | _ => fftSize end /\
  Tone.new_FFT (FFT.fftSize this) true = Normal (FFT.analyzer this).
Proof.
  intros Hnew. unfold FFT.constructor in Hnew. returned Hnew.
  simpl. split; [reflexivity | assumption].
Qed.

(** The class FFT defines neither [connect] nor [disconnect]. *)
Lemma FFT_has_no_disconnect (this : FFT.obj) (c : console) :
  FFT.get this "disconnect" = FFT.Data VUndefined /\
  FFT.call "disconnect" this c = (Throw TypeError, this, c) /\
  FFT.call "connect" this c = (Throw TypeError, this, c).
Proof. repeat split. Qed.

(** [disconnect()] is one engine call, with [Tone.Context.destination]
    as its argument, on the wrapped node. *)
Lemma SoundFile_disconnect_forwards (s : SoundFile.obj) (c : console) :
  SoundFile.disconnect s c =
  (match snd (Tone.disconnect (Tone.PlayerNode (SoundFile.soundfile s))
                              Tone.Context_destination) with
   | Normal _ => Normal VUndefined
   | Throw e => Throw e
   end,
   SoundFile.set_soundfile
     (Tone.set_player_native
        (fst (Tone.disconnect (Tone.PlayerNode (SoundFile.soundfile s))
                              Tone.Context_destination))) s, c).
Proof.
  unfold SoundFile.disconnect, bind, SoundFile.on_soundfile, ret.
  destruct (Tone.disconnect _ _) as [n [[]|e]]; reflexivity.
Qed.

Lemma Noise_disconnect_forwards (s : Noise.obj) (c : console) :
  Noise.disconnect s c =
  (match snd (Tone.disconnect (Tone.NoiseNode (Noise.noise s))
                              Tone.Context_destination) with
   | Normal _ => Normal VUndefined
   | Throw e => Throw e
   end,
   Noise.set_noise
     (Tone.set_noise_native
        (fst (Tone.disconnect (Tone.NoiseNode (Noise.noise s))
                              Tone.Context_destination))) s, c).
Proof.
  unfold Noise.disconnect, bind, Noise.on_noise, ret.
  destruct (Tone.disconnect _ _) as [n [[]|e]]; reflexivity.
Qed.

End Forwarding.

(** ** Sessions on a sound file *)

(** [run_call] evaluates one call down to the answers of the engine and
    splits on them. *)
Ltac run_call :=
  unfold SoundFileCalls.call, SoundFileCalls.body, SoundFileCalls.valued,
    SoundFile.getNode, SoundFile.connect, SoundFile.disconnect, SoundFile.start,
    SoundFile.play, SoundFile.stop, SoundFile.pause, SoundFile.loop,
    SoundFile.loopPoints, SoundFile.amp, SoundFile.proto_rate, SoundFile.duration,
    SoundFile.sampleRate, SoundFile.currentTime, SoundFile.jump, SoundFile.isPlaying,
    SoundFile.isLooping, SoundFile.onended, SoundFile.frames, SoundFile.channels,
    NoiseCalls.call, NoiseCalls.body, NoiseCalls.valued, Noise.type, Noise.getNode,
    Noise.connect, Noise.disconnect, Noise.start, Noise.stop, Noise.on_noise,
    Noise.evaluated,
    Noise.assign_type, SoundFile.assign, SoundFile.assign_volume, SoundFile.truthy,
    bind, gets, modify, ret, throw, console_log, SoundFile.on_soundfile,
    SoundFile.evaluated, outcome, final, output;
  simpl;
  repeat match goal with
         | |- context [match ?x with _ => _ end] =>
             lazymatch x with
             | context [match _ with _ => _ end] => fail
             | _ => destruct x eqn:?; simpl
             end
         end.

Section SoundFileSessions.
Context {E : Tone.Engine}.
Import SoundFileCalls.

(** One call: what it can do to the stored rate, the buffer, the
    console and [playbackRate]. *)
Lemma call_frame (m : invocation) (s : SoundFile.obj) (c : console) :
  SoundFile.rate (final (call m s c)) = SoundFile.rate s /\
  Tone.buffer (SoundFile.soundfile (final (call m s c)))
    = Tone.buffer (SoundFile.soundfile s) /\
  (output (call m s c) = c \/
   is_play m = true /\ output (call m s c) = (c ++ [[VNum (SoundFile.rate s)]])%list) /\
  Tone.playbackRate (SoundFile.soundfile (final (call m s c)))
    = latest_playbackRate (SoundFile.rate s)
        (Tone.playbackRate (SoundFile.soundfile s)) [m] /\
  Tone.loop (SoundFile.soundfile (final (call m s c)))
    = latest_loop (Tone.loop (SoundFile.soundfile s)) [m].
Proof.
  destruct m; run_call; repeat split; solve [congruence | auto].
Qed.

(** One call and the playing flag: the flag stays [true] through every
    call but [pause()], and stays [false] through every call but
    [start()] and [play()]. *)
Lemma call_playing (m : invocation) (s : SoundFile.obj) (c : console) :
  (is_pause m = false -> SoundFile.playing s = true ->
   SoundFile.playing (final (call m s c)) = true) /\
  (is_start_or_play m = false -> SoundFile.playing s = false ->
   SoundFile.playing (final (call m s c)) = false).
Proof.
  destruct m; run_call; split; intros; congruence.
Qed.

(** One call and the loop region: only [loopPoints()] writes it. *)
Lemma call_region (m : invocation) (s : SoundFile.obj) (c : console) :
  is_loopPoints m = false ->
  Tone.loopStart (SoundFile.soundfile (final (call m s c)))
    = Tone.loopStart (SoundFile.soundfile s) /\
  Tone.loopEnd (SoundFile.soundfile (final (call m s c)))
    = Tone.loopEnd (SoundFile.soundfile s).
Proof.
  destruct m; try discriminate; intros _; run_call; split; reflexivity.
Qed.

(** The console is only written to: the object a call leaves does not
    depend on what the console held. *)
Lemma call_final_any_console (m : invocation) (s : SoundFile.obj) (c c' : console) :
  final (call m s c) = final (call m s c').
Proof.
  destruct m; run_call; congruence.
Qed.

Lemma call_play_as_start (s : SoundFile.obj) (c c' : console) :
  final (call play s c) = final (call start s c').
Proof.
  unfold call; simpl. unfold valued, bind, final.
  rewrite start_run, play_run.
  destruct (snd (Tone.playbackRate_set (primed s)));
    [destruct (snd (Tone.Player_start (tuned s)))|]; reflexivity.
Qed.

(** X1: on an instance that [new SoundFile(...)] has produced, the own
    property [rate] holds the number 1 and is found before the method
    [rate] of the prototype: the call [this.rate(value)] throws a
    TypeError and changes nothing.  The method body itself, had it run,
    would have stored [value] in [this.rate] when the setter of
    [playbackRate] returns, and left the 1 when the setter throws. *)
Theorem SoundFile_rate_call_throws
        (buffer : jsvalue) (successCallback : option jsfunction) (this : SoundFile.obj) :
  SoundFile.constructor buffer successCallback = Normal this ->
  SoundFile.rate this = 1%float /\
  own_property this "rate" = Some (Data (VNum 1%float)) /\
  forall (value : float) (c : console),
    call (rate value) this c = (Throw TypeError, this, c) /\
    match outcome (body (rate value) this c) with
    | Normal _ => SoundFile.rate (final (body (rate value) this c)) = value
    | Throw _ => SoundFile.rate (final (body (rate value) this c)) = 1%float
    end.
Proof.
  intros Hnew. unfold SoundFile.constructor in Hnew. returned Hnew.
  repeat split. run_call; reflexivity.
Qed.

(** X2: over every session the stored rate stays what it was, and
    [playbackRate] ends as the latest of [start()], [play()] and
    [pause()] left it: the stored rate for the first two (written before
    the engine is asked to start, so also when the engine throws), 0 for
    the third. *)
Theorem session_playbackRate (calls : list invocation) (s : SoundFile.obj) (c : console) :
  SoundFile.rate (fst (session calls s c)) = SoundFile.rate s /\
  Tone.playbackRate (SoundFile.soundfile (fst (session calls s c)))
    = latest_playbackRate (SoundFile.rate s)
        (Tone.playbackRate (SoundFile.soundfile s)) calls.
Proof.
  revert s c. induction calls as [|m calls IH]; intros s c.
  - split; reflexivity.
  - destruct (call_frame m s c) as (Hrate & _ & _ & Hpr & _).
    destruct (IH (final (call m s c)) (output (call m s c))) as [IH1 IH2].
    simpl session. rewrite IH1, IH2, Hrate, Hpr. split; reflexivity.
Qed.

(** X3: once the playing flag is [true], a session without [pause()]
    leaves it [true]: no [stop()], [jump()], failed [start()] or any
    other call clears it. *)
Theorem only_pause_clears_playing
        (calls : list invocation) (s : SoundFile.obj) (c : console) :
  forallb (fun m => negb (is_pause m)) calls = true ->
  SoundFile.playing s = true ->
  outcome (SoundFile.isPlaying (fst (session calls s c)) (snd (session calls s c)))
    = Normal (VBool true).
Proof.
  rewrite isPlaying_run. unfold outcome; simpl.
  revert s c. induction calls as [|m calls IH]; intros s c Hcalls Hs; simpl in *.
  - now rewrite Hs.
  - apply andb_prop in Hcalls as [Hm Hcalls].
    apply IH; [exact Hcalls|].
    apply (proj1 (call_playing m s c)); [|exact Hs].
    now destruct (is_pause m).
Qed.

(** X4: an instance that [new SoundFile(...)] has produced answers
    [false] to [isPlaying()] after every session without [start()] and
    [play()]. *)
Theorem not_playing_until_started
        (buffer : jsvalue) (successCallback : option jsfunction) (this : SoundFile.obj)
        (calls : list invocation) (c : console) :
  SoundFile.constructor buffer successCallback = Normal this ->
  forallb (fun m => negb (is_start_or_play m)) calls = true ->
  outcome (SoundFile.isPlaying (fst (session calls this c)) (snd (session calls this c)))
    = Normal (VBool false).
Proof.
  intros Hnew Hcalls.
  assert (Hthis : SoundFile.playing this = false).
  { unfold SoundFile.constructor in Hnew. returned Hnew. reflexivity. }
  clear Hnew. rewrite isPlaying_run. unfold outcome; simpl.
  revert this c Hthis Hcalls.
  induction calls as [|m calls IH]; intros s c Hs Hcalls; simpl in *.
  - now rewrite Hs.
  - apply andb_prop in Hcalls as [Hm Hcalls].
    apply IH; [|exact Hcalls].
    apply (proj2 (call_playing m s c)); [|exact Hs].
    now destruct (is_start_or_play m).
Qed.

(** X5: after every session [isLooping()] answers the argument of the
    latest [loop()] call, [true] when that call had none, and the
    earlier state when the session has no [loop()] call. *)
Theorem isLooping_latest_loop (calls : list invocation) (s : SoundFile.obj) (c : console) :
  outcome (SoundFile.isLooping (fst (session calls s c)) (snd (session calls s c)))
    = Normal (VBool (latest_loop (Tone.loop (SoundFile.soundfile s)) calls)).
Proof.
  unfold SoundFile.isLooping, bind, gets, ret, outcome; simpl. f_equal. f_equal.
  revert s c. induction calls as [|m calls IH]; intros s c.
  - reflexivity.
  - destruct (call_frame m s c) as (_ & _ & _ & _ & Hloop).
    simpl session. rewrite IH, Hloop. reflexivity.
Qed.

(** X6: a session writes to the console only lines that hold the stored
    rate, at most one per [play()] call (a [play()] that throws in the
    setter of [playbackRate] logs nothing); no other call logs. *)
Theorem session_console (calls : list invocation) (s : SoundFile.obj) (c : console) :
  exists n : nat,
    n <= List.length (filter is_play calls) /\
    snd (session calls s c) = (c ++ repeat [VNum (SoundFile.rate s)] n)%list.
Proof.
  revert s c. induction calls as [|m calls IH]; intros s c.
  - exists 0. split; [apply le_n|]. simpl. now rewrite app_nil_r.
  - destruct (call_frame m s c) as (Hrate & _ & Hout & _).
    destruct (IH (final (call m s c)) (output (call m s c))) as (n & Hn & IHn).
    simpl session. rewrite IHn, Hrate. simpl filter.
    destruct Hout as [-> | [-> ->]].
    + exists n. split; [|reflexivity].
      destruct (is_play m); simpl; lia.
    + exists (S n). split; [simpl; lia|].
      simpl. now rewrite <- app_assoc.
Qed.

(** X7: in every state the four buffer queries return a number, never
    [undefined], and change nothing: the duration, sample rate, length
    and channel count of the decoded data when the buffer holds some;
    0, the sample rate of the audio context, 0 and 0 while it holds
    none. *)
Theorem buffer_queries_answer (s : SoundFile.obj) (c : console) :
  match Tone.decoded (Tone.buffer (SoundFile.soundfile s)) with
  | Some a =>
      SoundFile.duration s c = (Normal (VNum (Tone.duration a)), s, c) /\
      SoundFile.sampleRate s c = (Normal (VNum (Tone.sampleRate a)), s, c) /\
      SoundFile.frames s c = (Normal (VNum (Tone.length a)), s, c) /\
      SoundFile.channels s c = (Normal (VNum (Tone.numberOfChannels a)), s, c)
  | None =>
      SoundFile.duration s c = (Normal (VNum 0%float), s, c) /\
      SoundFile.sampleRate s c = (Normal (VNum Tone.Context_sampleRate), s, c) /\
      SoundFile.frames s c = (Normal (VNum 0%float), s, c) /\
      SoundFile.channels s c = (Normal (VNum 0%float), s, c)
  end.
Proof.
  unfold SoundFile.duration, SoundFile.sampleRate, SoundFile.frames, SoundFile.channels,
    SoundFile.truthy, bind, gets, ret, Tone.buffer_duration, Tone.buffer_sampleRate,
    Tone.buffer_length, Tone.buffer_numberOfChannels.
  destruct (Tone.decoded (Tone.buffer (SoundFile.soundfile s))); repeat split.
Qed.

(** X8: a call of [loopPoints] without a duration that returns has taken
    the duration of the whole buffer, whatever the start: it leaves
    [loopStart = startTime] (0 when omitted) and
    [loopEnd = startTime + buffer.duration], where [buffer.duration]
    reads 0 while the sound file is loading. *)
Theorem loopPoints_default_duration
        (startTime schedule : option float) (s : SoundFile.obj) (c : console) :
  let from := match startTime with Some x => x | None => 0%float end in
  let r := SoundFile.loopPoints startTime None schedule s c in
  outcome r = Normal VUndefined ->
  Tone.loopStart (SoundFile.soundfile (final r)) = from /\
  Tone.loopEnd (SoundFile.soundfile (final r))
    = (from + match Tone.decoded (Tone.buffer (SoundFile.soundfile s)) with
              | Some b => Tone.duration b
              | None => 0
              end)%float.
Proof.
  unfold SoundFile.loopPoints, SoundFile.assign, bind, gets, modify,
    SoundFile.on_soundfile, ret, outcome, final, Tone.buffer_duration; simpl.
  destruct (Tone.loopStart_set _) as [n [[]|e]]; simpl; [|discriminate].
  destruct (Tone.loopEnd_set _) as [n' [[]|e]]; simpl; [|discriminate].
  split; reflexivity.
Qed.

(** X9: a session without [loopPoints()] leaves the loop region as it
    was. *)
Theorem only_loopPoints_writes_region
        (calls : list invocation) (s : SoundFile.obj) (c : console) :
  forallb (fun m => negb (is_loopPoints m)) calls = true ->
  Tone.loopStart (SoundFile.soundfile (fst (session calls s c)))
    = Tone.loopStart (SoundFile.soundfile s) /\
  Tone.loopEnd (SoundFile.soundfile (fst (session calls s c)))
    = Tone.loopEnd (SoundFile.soundfile s).
Proof.
  revert s c. induction calls as [|m calls IH]; intros s c Hcalls; simpl in *.
  - split; reflexivity.
  - apply andb_prop in Hcalls as [Hm Hcalls].
    destruct (call_region m s c) as [H1 H2]; [now destruct (is_loopPoints m)|].
    destruct (IH (final (call m s c)) (output (call m s c)) Hcalls) as [IH1 IH2].
    rewrite IH1, IH2, H1, H2. split; reflexivity.
Qed.

(** X10: writing [start()] for every [play()] of a session leaves the
    same sound file; only the console differs. *)
Theorem play_as_start_same_session
        (calls : list invocation) (s : SoundFile.obj) (c c' : console) :
  fst (session (map as_start calls) s c) = fst (session calls s c').
Proof.
  revert s c c'. induction calls as [|m calls IH]; intros s c c'.
  - reflexivity.
  - simpl session.
    rewrite (IH _ _ (output (call m s c'))). f_equal. f_equal.
    destruct m; simpl as_start;
      solve [apply call_final_any_console | symmetry; apply call_play_as_start].
Qed.

End SoundFileSessions.

(** On [Sim]: the instance [new SoundFile("gong.mp3")] refuses
    [rate(2)] and keeps its rate of 1. *)
Lemma SoundFile_rate_call_throws_witness :
  exists this : @SoundFile.obj Sim.engine,
    SoundFile.constructor (VStr "gong.mp3") None = Normal this /\
    SoundFileCalls.call (SoundFileCalls.rate 2%float) this [] = (Throw TypeError, this, []) /\
    SoundFile.rate this = 1%float.
Proof.
  exists (@SoundFile.mk Sim.engine
            (Tone.set_player_native (Sim.add_edge Sim.fresh) Sim.unloaded_player)
            false 1%float).
  pose proof (SoundFile_rate_call_throws (E := Sim.engine) (VStr "gong.mp3") None
                (@SoundFile.mk Sim.engine
                   (Tone.set_player_native (Sim.add_edge Sim.fresh) Sim.unloaded_player)
                   false 1%float) eq_refl) as H.
  split; [reflexivity|]. split.
  - exact (proj1 (proj2 (proj2 H) 2%float [])).
  - exact (proj1 H).
Defined.

(** On [Sim]: started, then stopped, sought and stopped again. *)
Lemma only_pause_clears_playing_witness :
  let s := final (SoundFile.start Sim.loaded []) in
  let calls := [SoundFileCalls.stop; SoundFileCalls.jump 2%float; SoundFileCalls.stop] in
  SoundFile.playing s = true /\
  outcome (SoundFile.isPlaying (fst (SoundFileCalls.session calls s []))
                               (snd (SoundFileCalls.session calls s [])))
    = Normal (VBool true).
Proof.
  split; [reflexivity|].
  apply (only_pause_clears_playing
           [SoundFileCalls.stop; SoundFileCalls.jump 2%float; SoundFileCalls.stop]
           (final (SoundFile.start Sim.loaded [])) []); reflexivity.
Defined.

(** On [Sim]: a new instance, paused, looped and stopped, never started. *)
Lemma not_playing_until_started_witness :
  let calls := [SoundFileCalls.pause; SoundFileCalls.loop None; SoundFileCalls.stop;
                SoundFileCalls.rate 2%float] in
  exists this : @SoundFile.obj Sim.engine,
    SoundFile.constructor (VStr "gong.mp3") None = Normal this /\
    outcome (SoundFile.isPlaying (fst (SoundFileCalls.session calls this []))
                                 (snd (SoundFileCalls.session calls this [])))
      = Normal (VBool false).
Proof.
  exists (@SoundFile.mk Sim.engine
            (Tone.set_player_native (Sim.add_edge Sim.fresh) Sim.unloaded_player)
            false 1%float).
  split; [reflexivity|].
  apply (not_playing_until_started (E := Sim.engine) (VStr "gong.mp3") None); reflexivity.
Defined.

(** On [Sim]: a loop region set once survives starting, looping and
    stopping. *)
Lemma only_loopPoints_writes_region_witness :
  let s := final (SoundFile.loopPoints (Some 2%float) (Some 3%float) None Sim.loaded []) in
  let calls := [SoundFileCalls.start; SoundFileCalls.loop None; SoundFileCalls.stop] in
  Tone.loopStart (SoundFile.soundfile (fst (SoundFileCalls.session calls s []))) = 2%float /\
  Tone.loopEnd (SoundFile.soundfile (fst (SoundFileCalls.session calls s []))) = 5%float.
Proof.
  apply (only_loopPoints_writes_region
           [SoundFileCalls.start; SoundFileCalls.loop None; SoundFileCalls.stop]
           (final (SoundFile.loopPoints (Some 2%float) (Some 3%float) None Sim.loaded []))
           []).
  reflexivity.
Defined.

(** On [Sim]: on a sound file still loading, [loopPoints(3)] returns and
    leaves an empty region at 3. *)
Lemma loopPoints_default_duration_witness :
  let r := SoundFile.loopPoints (Some 3%float) None None Sim.unloaded [] in
  outcome r = Normal VUndefined /\
  Tone.loopStart (SoundFile.soundfile (final r)) = 3%float /\
  Tone.loopEnd (SoundFile.soundfile (final r)) = (3 + 0)%float.
Proof.
  split; [reflexivity|].
  exact (loopPoints_default_duration (Some 3%float) None Sim.unloaded [] eq_refl).
Defined.

(** ** Sessions on a noise source and on an analyser *)

Section NoiseSessions.
Context {E : Tone.Engine}.
Import NoiseCalls.

Lemma Noise_call_frame (m : invocation) (s : Noise.obj) (c : console) :
  In (Tone.type (Noise.noise (final (call m s c))))
     (Tone.type (Noise.noise s) :: type_arguments [m]) /\
  output (call m s c) = c.
Proof.
  destruct m; run_call; split; simpl; auto.
Qed.

(** X11: after every session the colour held in [noise.type] is the one
    the session began with or the argument of one of its [type()] calls,
    as given: [start()], [stop()], [connect()] and [disconnect()] never
    write it, whether the engine call returns or throws, so a session
    without [type()] leaves the colour as it was.  No call logs to the
    console. *)
Theorem Noise_session_type (calls : list invocation) (s : Noise.obj) (c : console) :
  In (Tone.type (Noise.noise (fst (session calls s c))))
     (Tone.type (Noise.noise s) :: type_arguments calls) /\
  snd (session calls s c) = c.
Proof.
  revert s c. induction calls as [|m calls IH]; intros s c.
  - split; [left|]; reflexivity.
  - destruct (Noise_call_frame m s c) as [Htype Hout].
    destruct (IH (final (call m s c)) (output (call m s c))) as [IH1 IH2].
    simpl session. split; [|now rewrite IH2].
    destruct IH1 as [IH1 | IH1].
    + rewrite <- IH1.
      destruct m; simpl in Htype |- *; intuition.
    + destruct m; simpl; auto.
Qed.

End NoiseSessions.

Section FFTSessions.
Context {E : Tone.Engine}.
Import FFTCalls.

Lemma FFT_call_frame (m : FFT.method) (this : FFT.obj) (c : console) :
  FFT.fftSize (final (FFT.call (name m) this c)) = FFT.fftSize this /\
  FFT.waveform (final (FFT.call (name m) this c)) = FFT.waveform this /\
  FFT.gain (final (FFT.call (name m) this c)) = FFT.gain this /\
  output (FFT.call (name m) this c) = c.
Proof.
  destruct m; unfold FFT.call; simpl; unfold bind, gets, ret, final, output; simpl.
  - repeat split.
  - destruct (Tone.FFT_getValue (FFT.analyzer this)) as [a [l|e]]; repeat split.
  - repeat split.
Qed.

(** X12: over every session of calls to the three methods of the class,
    [fftSize], the waveform node and the gain node of an analyser stay
    what they were (only the analyser node's engine state can move, in
    [analyze()]), nothing is logged, and [getNode()] keeps handing out
    the same gain node. *)
Theorem FFT_session_frame (calls : list FFT.method) (this : FFT.obj) (c : console) :
  let s' := fst (session calls this c) in
  let c' := snd (session calls this c) in
  FFT.fftSize s' = FFT.fftSize this /\
  FFT.waveform s' = FFT.waveform this /\
  FFT.gain s' = FFT.gain this /\
  c' = c /\
  FFT.call "getNode" s' c' = (Normal (FFT.Node (Tone.GainNode (FFT.gain this))), s', c').
Proof.
  intros s' c'.
  assert (H : FFT.fftSize s' = FFT.fftSize this /\ FFT.waveform s' = FFT.waveform this /\
              FFT.gain s' = FFT.gain this /\ c' = c).
  { subst s' c'. revert this c. induction calls as [|m calls IH]; intros this c.
    - repeat split.
    - destruct (FFT_call_frame m this c) as (H1 & H2 & H3 & H4).
      destruct (IH (final (FFT.call (name m) this c)) (output (FFT.call (name m) this c)))
        as (I1 & I2 & I3 & I4).
      simpl session. rewrite I1, I2, I3, I4, H1, H2, H3, H4. repeat split. }
  destruct H as (H1 & H2 & H3 & H4). repeat (split; [assumption|]).
  unfold FFT.call; simpl. unfold bind, gets, ret. now rewrite H3.
Qed.

(** X13: an analyser that [new FFT(fftSize)] has produced holds a gain
    node that the engine made with gain 1 and connected first to the
    analyser node and then to the waveform node, both calls having
    returned; that gain node is what [getNode()] hands out. *)
Theorem FFT_constructor_wiring (fftSize : jsvalue) (this : FFT.obj) :
  FFT.constructor fftSize = Normal this ->
  exists g0 g1 : Tone.native,
    Tone.new_Gain 1%float = Normal g0 /\
    Tone.connect (Tone.GainNode g0) (Tone.FFTNode (FFT.analyzer this)) = (g1, Normal tt) /\
    Tone.connect (Tone.GainNode g1) (Tone.WaveformNode (FFT.waveform this))
      = (FFT.gain this, Normal tt) /\
    forall c : console,
      FFT.call "getNode" this c = (Normal (FFT.Node (Tone.GainNode (FFT.gain this))), this, c).
Proof.
  intros Hnew. unfold FFT.constructor in Hnew. returned Hnew.
  repeat match goal with u : unit |- _ => destruct u end.
  eexists; eexists. repeat split; eassumption.
Qed.

End FFTSessions.

(** On [Sim]: the gain node of [new FFT()] has its two edges. *)
Lemma FFT_constructor_wiring_witness :
  exists this : @FFT.obj Sim.engine,
    FFT.constructor VUndefined = Normal this /\
    Sim.edges (FFT.gain this) = 2 /\
    FFT.call "getNode" this [] = (Normal (FFT.Node (Tone.GainNode (FFT.gain this))), this, []).
Proof.
  exists (@FFT.mk Sim.engine (VNum 32%float) Sim.fresh Sim.fresh
                  (Sim.add_edge (Sim.add_edge Sim.fresh))).
  split; [reflexivity|]. split; [reflexivity|].
  destruct (FFT_constructor_wiring (E := Sim.engine) VUndefined
              (@FFT.mk Sim.engine (VNum 32%float) Sim.fresh Sim.fresh
                       (Sim.add_edge (Sim.add_edge Sim.fresh))) eq_refl)
    as (g0 & g1 & _ & _ & _ & H).
  exact (H []).
Defined.
